(** * Verification of the animatronic-toy personality module

    Shallow embedding of [src/personality/brain.py] (module [Brain]) and of
    [src/personality/__init__.py] (module [Micro], the MicroPython variant).

    Python integers are unbounded, so every emotion value is a [Z].  The
    shifts [<<] and [>>] are [Z.shiftl] and [Z.shiftr]; the attribute loop
    of [Emotions.decay] is a [fold_left] over the attribute names; the
    random draws of [randint] and [choice] are explicit inputs. *)

From Stdlib Require Import ZArith List String Bool Lia.
Import ListNotations.
Local Open Scope Z_scope.

(** ** Python built-ins used by the source *)

Module Py.

(** [zip(a, b, c)]: stops at the shortest of the three sequences. *)
Fixpoint zip3 {A B C : Type} (a : list A) (b : list B) (c : list C)
  : list (A * B * C) :=
  match a, b, c with
  | x :: a', y :: b', z :: c' => (x, y, z) :: zip3 a' b' c'
  | _, _, _ => []
  end.

(** [all(iterable)] over a generator of booleans. *)
Definition all {A : Type} (f : A -> bool) (l : list A) : bool := forallb f l.

(** [random.choice(seq)] is [seq[randbelow(len(seq))]]; the draw [r] is
    reduced below the length, and the empty sequence raises [IndexError]
    (here [None]). *)
Definition choice {A : Type} (r : nat) (seq : list A) : option A :=
  match seq with
  | [] => None
  | _ :: _ => nth_error seq (Nat.modulo r (List.length seq))
  end.

End Py.

(** ** [src/personality/brain.py] *)

Module Brain.

(** *** class Interaction(IntEnum) *)

Inductive Interaction : Type :=
| NONE | SOUND | BACK_SENSOR | TAIL_PULL | UPSIDE_DOWN | SHAKE.

Definition value (i : Interaction) : Z :=
  match i with
  | NONE => 0
  | SOUND => 1
  | BACK_SENSOR => 2
  | TAIL_PULL => 3
  | UPSIDE_DOWN => 4
  | SHAKE => 5
  end.

(** *** class Emotions *)

Record Emotions : Type := mkEmotions {
  wellness : Z;
  fullness : Z;
  displeasedness : Z;
  tiredness : Z;
  excitedness : Z
}.

Definition Snapshot : Type := (Z * Z * Z * Z * Z)%type.

(** [Emotions.__init__] *)
Definition init : Emotions := mkEmotions 0 0 0 0 0.

(** [Emotions.get] *)
Definition get (self : Emotions) : Snapshot :=
  (wellness self, fullness self, displeasedness self,
   tiredness self, excitedness self).

(** [Emotions.set] *)
Definition set (self : Emotions) (vals : Snapshot) : Emotions :=
  let '(v0, v1, v2, v3, v4) := vals in
  let self := mkEmotions v0 (fullness self) (displeasedness self)
                         (tiredness self) (excitedness self) in
  let self := mkEmotions (wellness self) v1 (displeasedness self)
                         (tiredness self) (excitedness self) in
  let self := mkEmotions (wellness self) (fullness self) v2
                         (tiredness self) (excitedness self) in
  let self := mkEmotions (wellness self) (fullness self)
                         (displeasedness self) v3 (excitedness self) in
  mkEmotions (wellness self) (fullness self) (displeasedness self)
             (tiredness self) v4.

(** The five attribute names that [decay] walks through. *)
Inductive Attr : Type :=
| Wellness | Fullness | Displeasedness | Tiredness | Excitedness.

Definition getattr (self : Emotions) (attr : Attr) : Z :=
  match attr with
  | Wellness => wellness self
  | Fullness => fullness self
  | Displeasedness => displeasedness self
  | Tiredness => tiredness self
  | Excitedness => excitedness self
  end.

Definition setattr (self : Emotions) (attr : Attr) (v : Z) : Emotions :=
  match attr with
  | Wellness =>
      mkEmotions v (fullness self) (displeasedness self)
                 (tiredness self) (excitedness self)
  | Fullness =>
      mkEmotions (wellness self) v (displeasedness self)
                 (tiredness self) (excitedness self)
  | Displeasedness =>
      mkEmotions (wellness self) (fullness self) v
                 (tiredness self) (excitedness self)
  | Tiredness =>
      mkEmotions (wellness self) (fullness self) (displeasedness self)
                 v (excitedness self)
  | Excitedness =>
      mkEmotions (wellness self) (fullness self) (displeasedness self)
                 (tiredness self) v
  end.

Definition decay_rate : Z := 1.

Definition decay_attrs : list Attr :=
  [Wellness; Fullness; Displeasedness; Tiredness; Excitedness].

(** One iteration of the loop of [Emotions.decay]. *)
Definition decay_step (self : Emotions) (attr : Attr) : Emotions :=
  let value := getattr self attr in
  let value := Z.max 0 (value - decay_rate) in
  setattr self attr (Z.min 100 value).

(** [Emotions.decay] *)
Definition decay (self : Emotions) : Emotions :=
  fold_left decay_step decay_attrs self.

(** [n] successive calls of [decay]. *)
Fixpoint decay_n (n : nat) (self : Emotions) : Emotions :=
  match n with
  | O => self
  | S n' => decay_n n' (decay self)
  end.

(** Every dimension of the state lies in [0,100]. *)
Definition in_range (self : Emotions) : Prop :=
  forall attr, 0 <= getattr self attr <= 100.

Definition snapshot_in_range (vals : Snapshot) : Prop :=
  let '(w, f, d, t, e) := vals in
  0 <= w <= 100 /\ 0 <= f <= 100 /\ 0 <= d <= 100 /\
  0 <= t <= 100 /\ 0 <= e <= 100.

(** *** ActionTuple and the rule table *)

Section Actions.

(** The payload is [Any] in the source. *)
Context {Payload : Type}.

(** The twelve components of an [ActionTuple], in tuple order. *)
Record ActionTuple : Type := mkAction {
  min_wellness : Z;
  min_fullness : Z;
  min_displeasedness : Z;
  min_tiredness : Z;
  min_excitedness : Z;
  max_wellness : Z;
  max_fullness : Z;
  max_displeasedness : Z;
  max_tiredness : Z;
  max_excitedness : Z;
  interaction_req : Z;
  payload : Payload
}.

(** [entry[0:5]] *)
Definition mins (entry : ActionTuple) : list Z :=
  [min_wellness entry; min_fullness entry; min_displeasedness entry;
   min_tiredness entry; min_excitedness entry].

(** [entry[5:10]] *)
Definition maxs (entry : ActionTuple) : list Z :=
  [max_wellness entry; max_fullness entry; max_displeasedness entry;
   max_tiredness entry; max_excitedness entry].

(** The snapshot tuple as the sequence [zip] iterates over. *)
Definition items (emotions : Snapshot) : list Z :=
  let '(w, f, d, t, e) := emotions in [w; f; d; t; e].

(** [min_v <= emo <= max_v] *)
Definition within (t : Z * Z * Z) : bool :=
  let '(min_v, emo, max_v) := t in (min_v <=? emo) && (emo <=? max_v).

(** The two nested [if] conditions of the loop body of [_action]. *)
Definition runnable_entry (emotions : Snapshot) (interaction : Interaction)
           (entry : ActionTuple) : bool :=
  let mins := mins entry in
  let maxs := maxs entry in
  let int_req := interaction_req entry in
  if Py.all within (Py.zip3 mins (items emotions) maxs) then
    if (int_req =? 0) || (int_req =? value interaction) then true
    else false
  else false.

(** The loop of [_action]: payloads are appended in table order. *)
Definition collect_runnable (table : list ActionTuple)
           (emotions : Snapshot) (interaction : Interaction)
  : list Payload :=
  fold_left
    (fun runnable entry =>
       if runnable_entry emotions interaction entry
       then runnable ++ [payload entry]
       else runnable)
    table [].

(** What a call of [_action] does: it hands a payload to
    [_execute_action], or reports that nothing is runnable, or an
    exception escapes. *)
Inductive Outcome : Type :=
| Executed (selected : Payload)
| NoRunnableAction
| Raised.

(** [Brain._action]; [table] is [self.ACTION_TABLE] and [r] is the draw
    consumed by [choice]. *)
Definition _action (table : list ActionTuple) (r : nat)
           (self : Emotions) (interaction : Interaction) : Outcome :=
  let emotions := get self in
  let runnable := collect_runnable table emotions interaction in
  match runnable with
  | _ :: _ =>
      match Py.choice r runnable with
      | Some selected => Executed selected
      | None => Raised
      end
  | [] => NoRunnableAction
  end.

(** The matching condition in the words of the specification: all five
    bounds hold and the required interaction is 0 or the supplied one. *)
Definition rule_matches (emotions : Snapshot) (interaction : Interaction)
           (entry : ActionTuple) : Prop :=
  let '(w, f, d, t, e) := emotions in
  (min_wellness entry <= w <= max_wellness entry /\
   min_fullness entry <= f <= max_fullness entry /\
   min_displeasedness entry <= d <= max_displeasedness entry /\
   min_tiredness entry <= t <= max_tiredness entry /\
   min_excitedness entry <= e <= max_excitedness entry) /\
  (interaction_req entry = 0 \/
   interaction_req entry = value interaction).

End Actions.

Arguments ActionTuple Payload : clear implicits.
Arguments Outcome Payload : clear implicits.

(** [Brain.ACTION_TABLE] *)
Definition ACTION_TABLE : list (ActionTuple string) :=
  [mkAction 0 0 0 0 0 100 100 100 100 100 0 "idle action"%string].

(** *** Stress and delay *)

(** The stress value that [_random_delay] computes and prints. *)
Definition stress_of (emotions : Snapshot) : Z :=
  let '(wellness, fullness, displeasedness, tiredness, excitedness) :=
    emotions in
  let unwell := 100 - wellness in
  let hungry := 100 - fullness in
  let stress :=
    Z.shiftl unwell 1 + Z.shiftl hungry 1 + displeasedness + excitedness
    - Z.shiftl tiredness 1 in
  Z.max 0 (Z.min 255 (Z.shiftr stress 2)).

(** The argument of [sleep]; [r] is the value of [randint(1, 100)]. *)
Definition delay_of (stress r : Z) : Z := Z.shiftr (stress + r) 1.

(** [Brain._random_delay]: the duration it sleeps for. *)
Definition _random_delay (self : Emotions) (r : Z) : Z :=
  delay_of (stress_of (get self)) r.

(** [clamp(x, lo, hi)] of the specification. *)
Definition clamp (x lo hi : Z) : Z :=
  if x <? lo then lo else if hi <? x then hi else x.

(** The table of the no-match scenario: a single rule that requires
    [Interaction.SHAKE]. *)
Definition shake_only_table : list (ActionTuple string) :=
  [mkAction 0 0 0 0 0 100 100 100 100 100 (value SHAKE) "shake action"%string].

(** The weighted sum [raw] of the specification, before the division by
    four. *)
Definition raw_stress (w f d t e : Z) : Z :=
  2 * (100 - w) + 2 * (100 - f) + d + e - 2 * t.

(** *** The driver: [_execute_action], [_tick] and [run] *)

Section Driver.

Context {Payload : Type}.

(** What the driver does to the outside world: the lines it prints and
    the time it sleeps. *)
Inductive Event : Type :=
| PrintStress (stress : Z)
| Sleep (seconds : Z)
| PrintPayload (selected : Payload)
| PrintNoRunnable.

(** Whether a call returned or let an exception escape. *)
Inductive Status : Type := Returned | Raising.

(** [Brain._execute_action]: prints the payload. *)
Definition _execute_action (selected : Payload) : list Event :=
  [PrintPayload selected].

(** The effects of [Brain._random_delay]: the stress line, then the sleep;
    [r] is the value of [randint(1, 100)]. *)
Definition _random_delay_events (self : Emotions) (r : Z) : list Event :=
  let stress := stress_of (get self) in
  [PrintStress stress; Sleep (Z.shiftr (stress + r) 1)].

(** The effects of [Brain._action]. *)
Definition _action_events (table : list (ActionTuple Payload)) (r : nat)
           (self : Emotions) (interaction : Interaction)
  : list Event * Status :=
  match _action table r self interaction with
  | Executed selected => (_execute_action selected, Returned)
  | NoRunnableAction => ([PrintNoRunnable], Returned)
  | Raised => ([], Raising)
  end.

(** The two random draws one tick consumes. *)
Record Draws : Type := mkDraws {
  randint_draw : Z;
  choice_draw : nat
}.

(** [Brain._tick]: decay, then the delay, then the idle action. *)
Definition _tick (table : list (ActionTuple Payload)) (d : Draws)
           (self : Emotions) : Emotions * list Event * Status :=
  let self := decay self in
  let delayed := _random_delay_events self (randint_draw d) in
  let '(acted, status) := _action_events table (choice_draw d) self NONE in
  (self, delayed ++ acted, status).


End Driver.

Arguments Event Payload : clear implicits.

(** An entry whose minimum exceeds its maximum on some dimension. *)
Definition inverted {Payload : Type} (entry : ActionTuple Payload) : Prop :=
  max_wellness entry < min_wellness entry \/
  max_fullness entry < min_fullness entry \/
  max_displeasedness entry < min_displeasedness entry \/
  max_tiredness entry < min_tiredness entry \/
  max_excitedness entry < min_excitedness entry.

(** A two-rule table: an unconditional rule and one for a tail pull that
    needs some excitedness. *)
Definition sample_table : list (ActionTuple string) :=
  [mkAction 0 0 0 0 0 100 100 100 100 100 0 "hum"%string;
   mkAction 0 0 0 0 10 100 100 100 100 100 (value TAIL_PULL) "yelp"%string].

(** [Brain.interact] on the class-level table. *)
Definition interact (r : nat) (self : Emotions) (interaction : Interaction)
  : Outcome string :=
  _action ACTION_TABLE r self interaction.

End Brain.

(** ** [src/personality/__init__.py] (MicroPython variant) *)

Module Micro.

Record Emotions : Type := mkEmotions {
  wellness : Z;
  fullness : Z;
  displeasedness : Z;
  tiredness : Z;
  excitedness : Z
}.

(** [Emotions.get] *)
Definition get (self : Emotions) : Z * Z * Z * Z * Z :=
  (wellness self, fullness self, displeasedness self,
   tiredness self, excitedness self).

(** The frame of a running [decay]: the object [self] refers to and the
    local names [decay_rate] and [emotion] ([None] while unbound). *)
Record Frame : Type := mkFrame {
  self_obj : Emotions;
  decay_rate : Z;
  emotion : option Z
}.

(** Rebinding the local name [emotion]. *)
Definition bind_emotion (fr : Frame) (v : Z) : Frame :=
  mkFrame (self_obj fr) (decay_rate fr) (Some v).

(** The body of the [for emotion in [...]] loop, after [emotion] has been
    bound to the next list item. *)
Definition loop_body (fr : Frame) (item : Z) : Frame :=
  let fr := bind_emotion fr item in
  let fr :=
    match emotion fr with
    | Some e =>
        if e >=? decay_rate fr
        then bind_emotion fr (e - decay_rate fr)
        else bind_emotion fr 0
    | None => fr
    end in
  match emotion fr with
  | Some e => bind_emotion fr (if e >? 100 then 100 else e)
  | None => fr
  end.

(** [Emotions.decay]: the list literal is evaluated once, from the
    fields of [self], before the loop starts. *)
Definition decay_frame (self : Emotions) : Frame :=
  let fr := mkFrame self 1 None in
  let values :=
    [wellness (self_obj fr); fullness (self_obj fr);
     displeasedness (self_obj fr); tiredness (self_obj fr);
     excitedness (self_obj fr)] in
  fold_left loop_body values fr.

Definition decay (self : Emotions) : Emotions :=
  self_obj (decay_frame self).

(** [Emotions.__init__] *)
Definition init : Emotions := mkEmotions 0 0 0 0 0.

(** [Emotions.set] *)
Definition set (self : Emotions) (vals : Z * Z * Z * Z * Z) : Emotions :=
  let '(v0, v1, v2, v3, v4) := vals in
  let self := mkEmotions v0 (fullness self) (displeasedness self)
                         (tiredness self) (excitedness self) in
  let self := mkEmotions (wellness self) v1 (displeasedness self)
                         (tiredness self) (excitedness self) in
  let self := mkEmotions (wellness self) (fullness self) v2
                         (tiredness self) (excitedness self) in
  let self := mkEmotions (wellness self) (fullness self)
                         (displeasedness self) v3 (excitedness self) in
  mkEmotions (wellness self) (fullness self) (displeasedness self)
             (tiredness self) v4.

(** [Brain.tick]: one call of [self.emotions.decay()]. *)
Definition tick (self : Emotions) : Emotions := decay self.

(** [Brain.interact]: the body is a docstring only. *)
Definition interact (self : Emotions) (interaction : Z) : Emotions := self.

(** [n] successive calls of [tick]. *)
Fixpoint tick_n (n : nat) (self : Emotions) : Emotions :=
  match n with
  | O => self
  | S n' => tick_n n' (tick self)
  end.

End Micro.


(** ** The definitions evaluated on concrete inputs *)

Section Evaluation.

Import Brain.

Example decay_from_init : decay init = init.
Proof. reflexivity. Qed.

Example decay_snaps_to_range :
  decay (mkEmotions 250 (-7) 100 1 0) = mkEmotions 100 0 99 0 0.
Proof. reflexivity. Qed.

Example stress_at_init : stress_of (get init) = 100.
Proof. reflexivity. Qed.

Example stress_clamped_below : stress_of (100, 100, 0, 100, 0) = 0.
Proof. reflexivity. Qed.

Example stress_at_most_urgent : stress_of (0, 0, 100, 0, 100) = 150.
Proof. reflexivity. Qed.

Example delay_rounds_down : _random_delay init 1 = 50.
Proof. reflexivity. Qed.

Example interact_default :
  interact 5 init SHAKE = Executed "idle action"%string.
Proof. reflexivity. Qed.

Example no_match_scenario :
  _action shake_only_table 0 init NONE = NoRunnableAction.
Proof. reflexivity. Qed.

Example micro_decay_keeps_fields :
  Micro.get (Micro.decay (Micro.mkEmotions 10 20 30 40 50))
  = (10, 20, 30, 40, 50).
Proof. reflexivity. Qed.

End Evaluation.

(** ** Properties of [Brain.Emotions] *)

Section EmotionsFacts.

Import Brain.

Lemma getattr_setattr_same (s : Emotions) (a : Attr) (v : Z) :
  getattr (setattr s a v) a = v.
Proof. destruct a; reflexivity. Qed.

Lemma getattr_setattr_other (s : Emotions) (a b : Attr) (v : Z) :
  a <> b -> getattr (setattr s a v) b = getattr s b.
Proof. destruct a, b; intros Hab; try reflexivity; now elim Hab. Qed.

(** Each loop iteration touches the attribute it names and no other. *)
Lemma decay_step_same (s : Emotions) (a : Attr) :
  getattr (decay_step s a) a = Z.min 100 (Z.max 0 (getattr s a - 1)).
Proof. unfold decay_step, decay_rate. apply getattr_setattr_same. Qed.

Lemma decay_step_other (s : Emotions) (a b : Attr) :
  a <> b -> getattr (decay_step s a) b = getattr s b.
Proof. intros Hab. unfold decay_step. now apply getattr_setattr_other. Qed.

(** The whole loop: every attribute is visited exactly once. *)
Lemma decay_getattr (s : Emotions) (a : Attr) :
  getattr (decay s) a = Z.min 100 (Z.max 0 (getattr s a - 1)).
Proof.
  unfold decay, decay_attrs; cbn [fold_left].
  destruct a;
    repeat (rewrite decay_step_other by discriminate);
    rewrite decay_step_same;
    repeat (rewrite decay_step_other by discriminate);
    reflexivity.
Qed.

Lemma decay_in_range (s : Emotions) : in_range (decay s).
Proof. intros a. rewrite decay_getattr. lia. Qed.

Lemma decay_n_in_range (n : nat) (s : Emotions) :
  in_range s -> in_range (decay_n n s).
Proof.
  revert s. induction n as [|n IH]; intros s Hs; cbn [decay_n].
  - exact Hs.
  - apply IH, decay_in_range.
Qed.

Lemma decay_n_getattr (n : nat) (s : Emotions) (a : Attr) :
  in_range s ->
  getattr (decay_n n s) a = Z.max 0 (getattr s a - Z.of_nat n).
Proof.
  revert s. induction n as [|n IH]; intros s Hs; cbn [decay_n].
  - specialize (Hs a). lia.
  - rewrite IH by apply decay_in_range.
    rewrite decay_getattr. specialize (Hs a). lia.
Qed.

Lemma in_range_fields (s : Emotions) :
  in_range s <-> snapshot_in_range (get s).
Proof.
  unfold in_range, snapshot_in_range, get. split.
  - intros H.
    repeat split;
      first [ apply (H Wellness) | apply (H Fullness)
            | apply (H Displeasedness) | apply (H Tiredness)
            | apply (H Excitedness) ].
  - intros H a. destruct a; cbn [getattr]; tauto.
Qed.

Lemma get_set (s : Emotions) (v : Snapshot) : get (set s v) = v.
Proof. destruct v as [[[[v0 v1] v2] v3] v4]. reflexivity. Qed.

(** C1. For a state whose five dimensions lie in [0,100], one call of
    [decay] sets every dimension to [max(0, old - 1)]; after [N] calls
    every dimension equals [max(0, initial - N)] and lies in [0,100]. *)
Theorem decay_bound (s : Emotions) (N : nat) (a : Attr) :
  in_range s ->
  getattr (decay s) a = Z.max 0 (getattr s a - 1) /\
  getattr (decay_n N s) a = Z.max 0 (getattr s a - Z.of_nat N) /\
  0 <= getattr (decay_n N s) a <= 100.
Proof.
  intros Hs. split; [|split].
  - rewrite decay_getattr. specialize (Hs a). lia.
  - now apply decay_n_getattr.
  - now apply decay_n_in_range.
Qed.

Lemma decay_bound_witness :
  in_range (mkEmotions 3 100 0 50 1) /\
  getattr (decay (mkEmotions 3 100 0 50 1)) Fullness = 99 /\
  getattr (decay_n 4 (mkEmotions 3 100 0 50 1)) Wellness = 0 /\
  0 <= getattr (decay_n 4 (mkEmotions 3 100 0 50 1)) Wellness <= 100.
Proof.
  assert (H : in_range (mkEmotions 3 100 0 50 1))
    by (intros a; destruct a; cbn; lia).
  split; [exact H|].
  split; [exact (proj1 (decay_bound _ 4 Fullness H))|].
  exact (proj2 (decay_bound _ 4 Wellness H)).
Defined.

(** C5, as stated, fails for [set]: it stores what it is given. *)
Lemma set_not_clamped :
  wellness (set init (200, 0, 0, 0, 0)) = 200 /\
  ~ in_range (set init (200, 0, 0, 0, 0)).
Proof.
  split; [reflexivity|].
  intros H. specialize (H Wellness). cbn in H. lia.
Qed.

(** C5 (amended). After [decay] every field is in [0,100], whatever the
    starting state; after [set] every field is in [0,100] exactly when
    every element of the argument tuple is. *)
Theorem range_after_operations :
  (forall s, in_range (decay s)) /\
  (forall s vals, in_range (set s vals) <-> snapshot_in_range vals).
Proof.
  split.
  - exact decay_in_range.
  - intros s vals. rewrite in_range_fields, get_set. reflexivity.
Qed.

(** C8. [set] followed by [get] returns exactly the tuple that was set,
    for every five integers, in range or not. *)
Theorem set_get_roundtrip (s : Emotions) (v0 v1 v2 v3 v4 : Z) :
  get (set s (v0, v1, v2, v3, v4)) = (v0, v1, v2, v3, v4).
Proof. apply get_set. Qed.

End EmotionsFacts.


(** ** Stress and delay of [Brain._random_delay] *)

Section StressFacts.

Import Brain.

Lemma shiftl_1 (x : Z) : Z.shiftl x 1 = 2 * x.
Proof. rewrite Z.shiftl_mul_pow2 by lia. change (2 ^ 1) with 2. lia. Qed.

Lemma shiftr_1 (x : Z) : Z.shiftr x 1 = x / 2.
Proof. rewrite Z.shiftr_div_pow2 by lia. reflexivity. Qed.

Lemma shiftr_2 (x : Z) : Z.shiftr x 2 = x / 4.
Proof. rewrite Z.shiftr_div_pow2 by lia. reflexivity. Qed.

Lemma clamp_max_min (x : Z) : Z.max 0 (Z.min 255 x) = clamp x 0 255.
Proof.
  unfold clamp.
  destruct (Z.ltb_spec x 0); [lia|].
  destruct (Z.ltb_spec 255 x); lia.
Qed.

Lemma stress_of_raw (w f d t e : Z) :
  stress_of (w, f, d, t, e) = Z.max 0 (Z.min 255 (raw_stress w f d t e / 4)).
Proof.
  unfold stress_of, raw_stress.
  rewrite shiftr_2, !shiftl_1. reflexivity.
Qed.

Lemma stress_le (w f d t e w' f' d' t' e' : Z) :
  raw_stress w f d t e <= raw_stress w' f' d' t' e' ->
  stress_of (w, f, d, t, e) <= stress_of (w', f', d', t', e').
Proof.
  intros H. rewrite !stress_of_raw.
  apply Z.max_le_compat_l, Z.min_le_compat_l.
  apply Z.div_le_mono; lia.
Qed.

(** C2. For every snapshot the stress is the floor of the weighted sum
    divided by four, clamped into [0,255]. *)
Theorem stress_formula (w f d t e : Z) :
  stress_of (w, f, d, t, e) =
    clamp ((2 * (100 - w) + 2 * (100 - f) + d + e - 2 * t) / 4) 0 255 /\
  0 <= stress_of (w, f, d, t, e) <= 255.
Proof.
  rewrite stress_of_raw. unfold raw_stress. split.
  - apply clamp_max_min.
  - lia.
Qed.

(** C6. On snapshots in [0,100]^5 that differ in one dimension only,
    stress does not decrease when excitedness or displeasedness grows and
    does not increase when tiredness, wellness or fullness grows. *)
Theorem stress_monotone (w f d t e x : Z) :
  snapshot_in_range (w, f, d, t, e) ->
  0 <= x <= 100 ->
  (e <= x -> stress_of (w, f, d, t, e) <= stress_of (w, f, d, t, x)) /\
  (d <= x -> stress_of (w, f, d, t, e) <= stress_of (w, f, x, t, e)) /\
  (t <= x -> stress_of (w, f, d, x, e) <= stress_of (w, f, d, t, e)) /\
  (w <= x -> stress_of (x, f, d, t, e) <= stress_of (w, f, d, t, e)) /\
  (f <= x -> stress_of (w, x, d, t, e) <= stress_of (w, f, d, t, e)).
Proof.
  intros _ _.
  repeat split; intros Hx; apply stress_le; unfold raw_stress; lia.
Qed.

Lemma stress_monotone_witness :
  snapshot_in_range (40, 60, 10, 30, 20) /\
  0 <= 70 <= 100 /\
  stress_of (40, 60, 10, 30, 20) <= stress_of (40, 60, 10, 30, 70) /\
  stress_of (40, 60, 10, 30, 20) <= stress_of (40, 60, 70, 30, 20) /\
  stress_of (40, 60, 10, 70, 20) <= stress_of (40, 60, 10, 30, 20) /\
  stress_of (70, 60, 10, 30, 20) <= stress_of (40, 60, 10, 30, 20) /\
  stress_of (40, 70, 10, 30, 20) <= stress_of (40, 60, 10, 30, 20).
Proof.
  assert (Hs : snapshot_in_range (40, 60, 10, 30, 20))
    by (unfold snapshot_in_range; lia).
  assert (Hx : 0 <= 70 <= 100) by lia.
  destruct (stress_monotone 40 60 10 30 20 70 Hs Hx)
    as (He & Hd & Ht & Hw & Hf).
  split; [exact Hs|]. split; [exact Hx|].
  split; [apply He; lia|]. split; [apply Hd; lia|].
  split; [apply Ht; lia|]. split; [apply Hw; lia|].
  apply Hf; lia.
Defined.

(** C7. The idle delay is [floor((stress + r) / 2)]; for stress in
    [0,255] and a draw [r] in [1,100] it lies in [0,177]. *)
Theorem delay_bound (stress r : Z) :
  0 <= stress <= 255 ->
  1 <= r <= 100 ->
  delay_of stress r = (stress + r) / 2 /\
  0 <= delay_of stress r <= 177.
Proof.
  intros Hs Hr. unfold delay_of. rewrite shiftr_1. split; [reflexivity|].
  split.
  - apply Z.div_pos; lia.
  - apply Z.lt_succ_r, Z.div_lt_upper_bound; lia.
Qed.

Lemma delay_bound_witness :
  0 <= 255 <= 255 /\ 1 <= 100 <= 100 /\
  delay_of 255 100 = (255 + 100) / 2 /\
  0 <= delay_of 255 100 <= 177.
Proof.
  assert (Hs : 0 <= 255 <= 255) by lia.
  assert (Hr : 1 <= 100 <= 100) by lia.
  split; [exact Hs|]. split; [exact Hr|].
  exact (delay_bound 255 100 Hs Hr).
Defined.

(** The duration [_random_delay] sleeps for, in any state of the toy. *)
Lemma random_delay_range (self : Emotions) (r : Z) :
  1 <= r <= 100 -> 0 <= _random_delay self r <= 177.
Proof.
  intros Hr. unfold _random_delay, delay_of. rewrite shiftr_1.
  destruct self as [w f d t e].
  change (get (mkEmotions w f d t e)) with (w, f, d, t, e).
  pose proof (stress_of_raw w f d t e) as Hst.
  assert (0 <= stress_of (w, f, d, t, e) <= 255) by lia.
  split.
  - apply Z.div_pos; lia.
  - apply Z.lt_succ_r, Z.div_lt_upper_bound; lia.
Qed.

End StressFacts.


(** ** Action selection of [Brain._action] *)

Section SelectionFacts.

Import Brain.

Context {Payload : Type}.

Implicit Types (table : list (ActionTuple Payload))
               (entry : ActionTuple Payload)
               (emotions : Snapshot) (interaction : Interaction).

(** The two [if] conditions of the loop decide the matching condition of
    the specification. *)
Lemma runnable_entry_spec emotions interaction entry :
  runnable_entry emotions interaction entry = true <->
  rule_matches emotions interaction entry.
Proof.
  destruct emotions as [[[[w f] d] t] e].
  unfold runnable_entry, rule_matches, Py.all, mins, maxs, items, within.
  cbn [Py.zip3 forallb].
  rewrite !andb_true_r.
  destruct ((min_wellness entry <=? w) && (w <=? max_wellness entry) &&
            ((min_fullness entry <=? f) && (f <=? max_fullness entry) &&
             ((min_displeasedness entry <=? d) &&
              (d <=? max_displeasedness entry) &&
              ((min_tiredness entry <=? t) && (t <=? max_tiredness entry) &&
               ((min_excitedness entry <=? e) &&
                (e <=? max_excitedness entry)))))) eqn:Hb.
  - rewrite !andb_true_iff, !Z.leb_le in Hb.
    destruct ((interaction_req entry =? 0)
              || (interaction_req entry =? value interaction)) eqn:Hi.
    + rewrite orb_true_iff, !Z.eqb_eq in Hi. split; intros _; [|reflexivity].
      split; [lia | exact Hi].
    + rewrite orb_false_iff, !Z.eqb_neq in Hi. split; [discriminate|].
      intros [_ [H | H]]; lia.
  - split; [discriminate|]. intros [Hr _].
    rewrite <- not_true_iff_false in Hb. elim Hb.
    rewrite !andb_true_iff, !Z.leb_le. lia.
Qed.

(** The loop appends to its accumulator the payloads of the runnable
    entries, in table order. *)
Lemma collect_runnable_acc table emotions interaction (acc : list Payload) :
  fold_left
    (fun runnable entry =>
       if runnable_entry emotions interaction entry
       then runnable ++ [payload entry] else runnable)
    table acc
  = acc ++ map payload (filter (runnable_entry emotions interaction) table).
Proof.
  revert acc. induction table as [|entry table IH]; intros acc; cbn.
  - now rewrite app_nil_r.
  - rewrite IH. destruct (runnable_entry emotions interaction entry); cbn.
    + now rewrite <- app_assoc.
    + reflexivity.
Qed.

Lemma collect_runnable_filter table emotions interaction :
  collect_runnable table emotions interaction
  = map payload (filter (runnable_entry emotions interaction) table).
Proof. unfold collect_runnable. now rewrite collect_runnable_acc. Qed.

Lemma in_collect_runnable table emotions interaction (p : Payload) :
  In p (collect_runnable table emotions interaction) <->
  exists entry,
    In entry table /\ payload entry = p /\
    rule_matches emotions interaction entry.
Proof.
  rewrite collect_runnable_filter, in_map_iff. split.
  - intros (entry & Hp & Hin). apply filter_In in Hin as [Hin Hr].
    exists entry. now rewrite <- runnable_entry_spec.
  - intros (entry & Hin & Hp & Hm). exists entry. split; [exact Hp|].
    apply filter_In. now rewrite runnable_entry_spec.
Qed.

(** [choice] on a non-empty sequence returns one of its elements. *)
Lemma choice_cons (r : nat) (x : Payload) (l : list Payload) :
  exists y, Py.choice r (x :: l) = Some y /\ In y (x :: l).
Proof.
  unfold Py.choice.
  destruct (nth_error (x :: l) (Nat.modulo r (List.length (x :: l))))
    as [y|] eqn:Hn.
  - exists y. split; [reflexivity|]. eapply nth_error_In, Hn.
  - apply nth_error_None in Hn.
    pose proof (Nat.mod_upper_bound r (List.length (x :: l))) as Hlt.
    cbn [List.length] in *. lia.
Qed.

(** The three outcomes of [_action], according to the runnable list. *)
Lemma action_cases table (r : nat) (self : Emotions) interaction :
  (collect_runnable table (get self) interaction = [] /\
   _action table r self interaction = NoRunnableAction) \/
  (exists selected,
     In selected (collect_runnable table (get self) interaction) /\
     _action table r self interaction = Executed selected).
Proof.
  unfold _action.
  destruct (collect_runnable table (get self) interaction) as [|x l].
  - left. now split.
  - right. destruct (choice_cons r x l) as (y & Hy & Hin).
    exists y. now rewrite Hy.
Qed.

(** C3. A payload selected by [_action] belongs to a table entry whose
    five bounds hold for the current emotions and whose required
    interaction is 0 or the supplied one. *)
Theorem action_sound table (r : nat) (self : Emotions) interaction
        (selected : Payload) :
  _action table r self interaction = Executed selected ->
  exists entry,
    In entry table /\ payload entry = selected /\
    rule_matches (get self) interaction entry.
Proof.
  intros Hsel.
  destruct (action_cases table r self interaction)
    as [[_ Hnone] | (p & Hin & Hexec)].
  - congruence.
  - apply in_collect_runnable. congruence.
Qed.

(** C4. If some table entry matches, [_action] executes a payload; if
    none matches, it reports that nothing is runnable, and no exception
    escapes. *)
Theorem action_complete table (r : nat) (self : Emotions) interaction :
  ((exists entry,
      In entry table /\ rule_matches (get self) interaction entry) ->
   exists selected, _action table r self interaction = Executed selected) /\
  ((forall entry,
      In entry table -> ~ rule_matches (get self) interaction entry) ->
   _action table r self interaction = NoRunnableAction).
Proof.
  destruct (action_cases table r self interaction)
    as [[Hnil Hnone] | (p & Hin & Hexec)]; split.
  - intros (entry & Hin & Hm). exfalso.
    assert (Hp : In (payload entry)
                    (collect_runnable table (get self) interaction))
      by (apply in_collect_runnable; now exists entry).
    rewrite Hnil in Hp. exact Hp.
  - intros _. exact Hnone.
  - intros _. now exists p.
  - intros Hno. exfalso.
    apply in_collect_runnable in Hin as (entry & Hin & _ & Hm).
    exact (Hno entry Hin Hm).
Qed.

End SelectionFacts.


(** ** The class-level [ACTION_TABLE] *)

Section DefaultTableFacts.

Import Brain.

Local Open Scope string_scope.

Lemma default_rule_matches (self : Emotions) (interaction : Interaction) :
  in_range self ->
  rule_matches (get self) interaction
    (mkAction 0 0 0 0 0 100 100 100 100 100 0 "idle action").
Proof.
  intros Hs. apply in_range_fields in Hs.
  destruct self as [w f d t e]. unfold get, snapshot_in_range in Hs.
  cbn in Hs. unfold get, rule_matches. cbn. split; [lia | now left].
Qed.

Lemma action_sound_witness :
  _action ACTION_TABLE 7 (mkEmotions 10 20 30 40 50) TAIL_PULL
    = Executed "idle action" /\
  exists entry,
    In entry ACTION_TABLE /\ payload entry = "idle action" /\
    rule_matches (get (mkEmotions 10 20 30 40 50)) TAIL_PULL entry.
Proof.
  assert (H : _action ACTION_TABLE 7 (mkEmotions 10 20 30 40 50) TAIL_PULL
              = Executed "idle action") by reflexivity.
  split; [exact H|].
  exact (action_sound ACTION_TABLE 7 (mkEmotions 10 20 30 40 50) TAIL_PULL
                      "idle action" H).
Defined.

Lemma action_complete_witness :
  (exists entry,
     In entry ACTION_TABLE /\ rule_matches (get init) SOUND entry) /\
  (exists selected, _action ACTION_TABLE 3 init SOUND = Executed selected) /\
  (forall entry,
     In entry shake_only_table -> ~ rule_matches (get init) NONE entry) /\
  _action shake_only_table 3 init NONE = NoRunnableAction.
Proof.
  assert (Hyes : exists entry,
             In entry ACTION_TABLE /\ rule_matches (get init) SOUND entry).
  { exists (mkAction 0 0 0 0 0 100 100 100 100 100 0 "idle action").
    split; [now left|]. cbn. lia. }
  assert (Hno : forall entry,
             In entry shake_only_table ->
             ~ rule_matches (get init) NONE entry).
  { intros entry [<- | []]. cbn. lia. }
  split; [exact Hyes|].
  split; [exact (proj1 (action_complete ACTION_TABLE 3 init SOUND) Hyes)|].
  split; [exact Hno|].
  exact (proj2 (action_complete shake_only_table 3 init NONE) Hno).
Defined.

(** C9, as stated, fails once an emotion has been set above 100: the only
    rule of the table no longer matches. *)
Lemma default_table_out_of_range :
  _action ACTION_TABLE 0 (set init (101, 0, 0, 0, 0)) NONE
    = NoRunnableAction /\
  _action ACTION_TABLE 0 (set init (101, 0, 0, 0, 0)) NONE
    <> Executed "idle action".
Proof. split; [reflexivity | discriminate]. Qed.

(** C9 (amended). With the default [ACTION_TABLE], for every emotion
    snapshot whose five values lie in [0,100] and every interaction, the
    selected payload is "idle action". *)
Theorem default_table_idle (r : nat) (self : Emotions)
        (interaction : Interaction) :
  in_range self ->
  _action ACTION_TABLE r self interaction = Executed "idle action".
Proof.
  intros Hs. unfold _action.
  assert (Hrun : collect_runnable ACTION_TABLE (get self) interaction
                 = ["idle action"]).
  { rewrite collect_runnable_filter. unfold ACTION_TABLE. cbn [filter].
    rewrite (proj2 (runnable_entry_spec _ _ _)
                   (default_rule_matches self interaction Hs)).
    reflexivity. }
  rewrite Hrun. unfold Py.choice. cbn [List.length].
  rewrite Nat.mod_1_r. reflexivity.
Qed.

Lemma default_table_idle_witness :
  in_range (mkEmotions 100 0 55 7 99) /\
  _action ACTION_TABLE 12 (mkEmotions 100 0 55 7 99) SHAKE
    = Executed "idle action".
Proof.
  assert (H : in_range (mkEmotions 100 0 55 7 99))
    by (intros a; destruct a; cbn; lia).
  split; [exact H|].
  exact (default_table_idle 12 (mkEmotions 100 0 55 7 99) SHAKE H).
Defined.

End DefaultTableFacts.

(** ** [Emotions.decay] of the MicroPython variant *)

Section MicroFacts.

(** No step of the loop body writes to the object behind [self]. *)
Lemma loop_body_self (fr : Micro.Frame) (item : Z) :
  Micro.self_obj (Micro.loop_body fr item) = Micro.self_obj fr.
Proof.
  unfold Micro.loop_body. cbn [Micro.bind_emotion Micro.emotion].
  destruct (item >=? _); reflexivity.
Qed.

Lemma loop_self (values : list Z) (fr : Micro.Frame) :
  Micro.self_obj (fold_left Micro.loop_body values fr) = Micro.self_obj fr.
Proof.
  revert fr. induction values as [|item values IH]; intros fr; cbn.
  - reflexivity.
  - now rewrite IH, loop_body_self.
Qed.

(** C10. [decay] of the MicroPython variant leaves the five fields of
    the object as they were, for every starting state. *)
Theorem micro_decay_noop (self : Micro.Emotions) :
  Micro.decay self = self /\
  Micro.get (Micro.decay self) = Micro.get self.
Proof.
  assert (H : Micro.decay self = self).
  { unfold Micro.decay, Micro.decay_frame. now rewrite loop_self. }
  split; [exact H | now rewrite H].
Qed.

End MicroFacts.

(** ** Further properties of [Brain.Emotions] *)

Section EmotionsMore.

Import Brain.

Lemma emotions_ext (s s' : Emotions) :
  (forall a, getattr s a = getattr s' a) -> s = s'.
Proof.
  intros H. destruct s as [w f d t e], s' as [w' f' d' t' e'].
  pose proof (H Wellness) as Hw. pose proof (H Fullness) as Hf.
  pose proof (H Displeasedness) as Hd. pose proof (H Tiredness) as Ht.
  pose proof (H Excitedness) as He. cbn in *. congruence.
Qed.

Lemma get_decay (s : Emotions) :
  get (decay s) =
    (Z.min 100 (Z.max 0 (wellness s - 1)),
     Z.min 100 (Z.max 0 (fullness s - 1)),
     Z.min 100 (Z.max 0 (displeasedness s - 1)),
     Z.min 100 (Z.max 0 (tiredness s - 1)),
     Z.min 100 (Z.max 0 (excitedness s - 1))).
Proof.
  unfold get.
  change (wellness (decay s)) with (getattr (decay s) Wellness).
  change (fullness (decay s)) with (getattr (decay s) Fullness).
  change (displeasedness (decay s)) with (getattr (decay s) Displeasedness).
  change (tiredness (decay s)) with (getattr (decay s) Tiredness).
  change (excitedness (decay s)) with (getattr (decay s) Excitedness).
  rewrite !decay_getattr. reflexivity.
Qed.

(** X1. On any state, in range or not, one [decay] sends a value of at
    most 1 to 0, a value of at least 101 to 100, and decrements a value
    in between. *)
Theorem decay_any_state (s : Emotions) (a : Attr) :
  (getattr s a <= 1 -> getattr (decay s) a = 0) /\
  (1 <= getattr s a <= 101 -> getattr (decay s) a = getattr s a - 1) /\
  (101 <= getattr s a -> getattr (decay s) a = 100).
Proof. rewrite decay_getattr. lia. Qed.

Lemma decay_any_state_witness :
  getattr (decay (mkEmotions (-40) 1 57 101 3000)) Wellness = 0 /\
  getattr (decay (mkEmotions (-40) 1 57 101 3000)) Displeasedness = 56 /\
  getattr (decay (mkEmotions (-40) 1 57 101 3000)) Excitedness = 100.
Proof.
  split; [|split].
  - apply (proj1 (decay_any_state (mkEmotions (-40) 1 57 101 3000) Wellness)).
    cbn. lia.
  - apply (proj1 (proj2 (decay_any_state (mkEmotions (-40) 1 57 101 3000)
                                         Displeasedness))).
    cbn. lia.
  - apply (proj2 (proj2 (decay_any_state (mkEmotions (-40) 1 57 101 3000)
                                         Excitedness))).
    cbn. lia.
Defined.

(** X2. Whatever the starting state, 101 or more calls of [decay] leave
    all five emotions at 0. *)
Theorem decay_reaches_zero (s : Emotions) (N : nat) :
  (101 <= N)%nat -> decay_n N s = init.
Proof.
  intros HN. destruct N as [|n]; [lia|]. cbn [decay_n].
  apply emotions_ext. intros a.
  rewrite decay_n_getattr by apply decay_in_range.
  pose proof (decay_in_range s a) as Hr.
  destruct a; cbn [getattr init wellness fullness displeasedness tiredness
                   excitedness] in *; lia.
Qed.

Lemma decay_reaches_zero_witness :
  (101 <= 101)%nat /\ decay_n 101 (mkEmotions 5000 100 (-3) 42 101) = init.
Proof.
  assert (H : (101 <= 101)%nat) by lia.
  split; [exact H|].
  exact (decay_reaches_zero (mkEmotions 5000 100 (-3) 42 101) 101 H).
Defined.

(** X3. The all-zero state is the only state that [decay] leaves
    unchanged. *)
Theorem decay_fixed_point (s : Emotions) : decay s = s <-> s = init.
Proof.
  split.
  - intros H. apply emotions_ext. intros a.
    assert (Ha : getattr (decay s) a = getattr s a) by now rewrite H.
    rewrite decay_getattr in Ha.
    destruct a; cbn [getattr init wellness fullness displeasedness tiredness
                     excitedness] in *; lia.
  - intros ->. reflexivity.
Qed.

(** X4. [set] with the snapshot of a state rebuilds that state, whatever
    the receiving object held before. *)
Theorem set_of_get (s s' : Emotions) : set s' (get s) = s.
Proof. destruct s, s'. reflexivity. Qed.

End EmotionsMore.

(** ** Further properties of the stress and of the driver *)

Section DriverFacts.

Import Brain.

Lemma stress_in_range_le (w f d t e : Z) :
  snapshot_in_range (w, f, d, t, e) ->
  0 <= stress_of (w, f, d, t, e) <= 150.
Proof.
  unfold snapshot_in_range. intros H. rewrite stress_of_raw.
  assert (raw_stress w f d t e / 4 <= 150)
    by (apply Z.lt_succ_r, Z.div_lt_upper_bound; unfold raw_stress; lia).
  lia.
Qed.

(** X5. On snapshots in [0,100]^5 the stress never exceeds 150, so the
    upper clamp at 255 is not reached, and no such snapshot sleeps for
    more than 125. *)
Theorem stress_of_valid_snapshot (w f d t e r : Z) :
  snapshot_in_range (w, f, d, t, e) ->
  1 <= r <= 100 ->
  0 <= stress_of (w, f, d, t, e) <= 150 /\
  0 <= delay_of (stress_of (w, f, d, t, e)) r <= 125.
Proof.
  intros Hs Hr. pose proof (stress_in_range_le w f d t e Hs) as Hst.
  split; [exact Hst|]. unfold delay_of. rewrite shiftr_1. split.
  - apply Z.div_pos; lia.
  - apply Z.lt_succ_r, Z.div_lt_upper_bound; lia.
Qed.

Lemma stress_of_valid_snapshot_witness :
  snapshot_in_range (0, 0, 100, 0, 100) /\ 1 <= 100 <= 100 /\
  0 <= stress_of (0, 0, 100, 0, 100) <= 150 /\
  0 <= delay_of (stress_of (0, 0, 100, 0, 100)) 100 <= 125.
Proof.
  assert (Hs : snapshot_in_range (0, 0, 100, 0, 100))
    by (unfold snapshot_in_range; lia).
  assert (Hr : 1 <= 100 <= 100) by lia.
  split; [exact Hs|]. split; [exact Hr|].
  exact (stress_of_valid_snapshot 0 0 100 0 100 100 Hs Hr).
Defined.

(** X6. While all five emotions are in [1,100], one [decay] lowers each
    by one and so raises the weighted sum by four: the stress goes up by
    one, unless it stays clamped at 0. *)
Theorem stress_after_decay (s : Emotions) :
  (forall a, 1 <= getattr s a <= 100) ->
  stress_of (get (decay s)) =
    Z.max 0 (raw_stress (wellness s) (fullness s) (displeasedness s)
                        (tiredness s) (excitedness s) / 4 + 1) /\
  stress_of (get s) <= stress_of (get (decay s)) <= stress_of (get s) + 1.
Proof.
  intros H. rewrite get_decay.
  pose proof (H Wellness) as Hw. pose proof (H Fullness) as Hf.
  pose proof (H Displeasedness) as Hd. pose proof (H Tiredness) as Ht.
  pose proof (H Excitedness) as He.
  destruct s as [w f d t e]; cbn in Hw, Hf, Hd, Ht, He.
  unfold get.
  cbn [wellness fullness displeasedness tiredness excitedness].
  replace (Z.min 100 (Z.max 0 (w - 1))) with (w - 1) by lia.
  replace (Z.min 100 (Z.max 0 (f - 1))) with (f - 1) by lia.
  replace (Z.min 100 (Z.max 0 (d - 1))) with (d - 1) by lia.
  replace (Z.min 100 (Z.max 0 (t - 1))) with (t - 1) by lia.
  replace (Z.min 100 (Z.max 0 (e - 1))) with (e - 1) by lia.
  rewrite !stress_of_raw.
  replace (raw_stress (w - 1) (f - 1) (d - 1) (t - 1) (e - 1))
    with (raw_stress w f d t e + 1 * 4) by (unfold raw_stress; lia).
  rewrite Z.div_add by lia.
  assert (raw_stress w f d t e / 4 < 150)
    by (apply Z.div_lt_upper_bound; unfold raw_stress; lia).
  lia.
Qed.

Lemma stress_after_decay_witness :
  (forall a, 1 <= getattr (mkEmotions 50 50 50 50 50) a <= 100) /\
  stress_of (get (decay (mkEmotions 50 50 50 50 50))) = 51 /\
  stress_of (get (mkEmotions 50 50 50 50 50))
    <= stress_of (get (decay (mkEmotions 50 50 50 50 50)))
    <= stress_of (get (mkEmotions 50 50 50 50 50)) + 1.
Proof.
  assert (H : forall a, 1 <= getattr (mkEmotions 50 50 50 50 50) a <= 100)
    by (intros a; destruct a; cbn; lia).
  split; [exact H|].
  exact (stress_after_decay (mkEmotions 50 50 50 50 50) H).
Defined.

End DriverFacts.

(** ** The tick loop *)

Section TickFacts.

Import Brain.

Context {Payload : Type}.

Implicit Types (table : list (ActionTuple Payload)) (d : Draws).





End TickFacts.

(** ** Further properties of the action selection *)

Section SelectionMore.

Import Brain.

Context {Payload : Type}.

Implicit Types (table : list (ActionTuple Payload))
               (entry : ActionTuple Payload)
               (emotions : Snapshot) (interaction : Interaction).

(** X9. The candidate list follows the table: the candidates of two
    tables put end to end are the candidates of the first followed by
    those of the second. *)
Theorem collect_runnable_app table table' emotions interaction :
  collect_runnable (table ++ table') emotions interaction
  = collect_runnable table emotions interaction
      ++ collect_runnable table' emotions interaction.
Proof.
  rewrite !collect_runnable_filter, filter_app, map_app. reflexivity.
Qed.

(** X10. No candidate has priority: every payload of the candidate list
    is the one executed for some draw of [choice]. *)
Theorem every_candidate_selectable table (self : Emotions) interaction
        (p : Payload) :
  In p (collect_runnable table (get self) interaction) ->
  exists r, _action table r self interaction = Executed p.
Proof.
  intros Hin. apply In_nth_error in Hin as (n & Hn). exists n.
  unfold _action.
  destruct (collect_runnable table (get self) interaction) as [|x l] eqn:Hl.
  - destruct n; discriminate.
  - unfold Py.choice.
    assert (Hlt : (n < List.length (x :: l))%nat)
      by (apply nth_error_Some; congruence).
    rewrite Nat.mod_small by exact Hlt. now rewrite Hn.
Qed.

(** X11. If some entry matches and all matching entries carry the same
    payload, that payload is executed whatever [choice] draws. *)
Theorem single_payload_selected table (self : Emotions) interaction
        (p : Payload) (r : nat) :
  (exists entry,
     In entry table /\ rule_matches (get self) interaction entry) ->
  (forall entry,
     In entry table -> rule_matches (get self) interaction entry ->
     payload entry = p) ->
  _action table r self interaction = Executed p.
Proof.
  intros (entry & Hin & Hm) Hall.
  destruct (action_cases table r self interaction)
    as [[Hnil _] | (q & Hq & ->)].
  - assert (Hp : In (payload entry)
                    (collect_runnable table (get self) interaction))
      by (apply in_collect_runnable; now exists entry).
    rewrite Hnil in Hp. destruct Hp.
  - apply in_collect_runnable in Hq as (entry' & Hin' & <- & Hm').
    f_equal. now apply Hall.
Qed.

(** X12. An entry whose minimum exceeds its maximum on some dimension is
    dead: taking it out of the table changes the candidate list for no
    emotions and no interaction. *)
Theorem inverted_entry_dead table table' entry emotions interaction :
  inverted entry ->
  collect_runnable (table ++ entry :: table') emotions interaction
  = collect_runnable (table ++ table') emotions interaction.
Proof.
  intros Hinv.
  assert (Hdead : runnable_entry emotions interaction entry = false).
  { apply not_true_iff_false. rewrite runnable_entry_spec.
    destruct emotions as [[[[w f] d] t] e].
    unfold rule_matches, inverted in *. lia. }
  rewrite !collect_runnable_filter, !filter_app. cbn [filter].
  now rewrite Hdead.
Qed.

(** X13. Whatever is a candidate on the idle path is a candidate under
    every interaction. *)
Theorem idle_candidates_always table emotions interaction :
  incl (collect_runnable table emotions NONE)
       (collect_runnable table emotions interaction).
Proof.
  intros p Hp. apply in_collect_runnable in Hp as (entry & Hin & Hpay & Hm).
  apply in_collect_runnable. exists entry. split; [exact Hin|].
  split; [exact Hpay|].
  destruct emotions as [[[[w f] d] t] e]. unfold rule_matches in *.
  cbn [value] in Hm. split; [tauto|]. left. tauto.
Qed.

(** X14. On the idle path only unconditional entries run: a payload
    executed for [Interaction.NONE] comes from an entry whose required
    interaction is 0. *)
Theorem idle_runs_unconditional table (r : nat) (self : Emotions)
        (p : Payload) :
  _action table r self NONE = Executed p ->
  exists entry,
    In entry table /\ payload entry = p /\ interaction_req entry = 0.
Proof.
  intros Hsel.
  destruct (action_cases table r self NONE) as [[_ Hnone] | (q & Hq & Hexec)].
  - congruence.
  - assert (q = p) as -> by congruence.
    apply in_collect_runnable in Hq as (entry & Hin & Hpay & Hm).
    exists entry. split; [exact Hin|]. split; [exact Hpay|].
    destruct (get self) as [[[[w f] d] t] e]. unfold rule_matches in Hm.
    cbn [value] in Hm. tauto.
Qed.

End SelectionMore.

(** ** The driver on the class-level [ACTION_TABLE], and concrete runs *)

Section DefaultDriverFacts.

Import Brain.

Local Open Scope string_scope.

Lemma default_table_selects (r : nat) (self : Emotions)
      (interaction : Interaction) :
  in_range self ->
  _action ACTION_TABLE r self interaction = Executed "idle action".
Proof.
  intros Hs. unfold _action.
  rewrite collect_runnable_filter. unfold ACTION_TABLE. cbn [filter].
  rewrite (proj2 (runnable_entry_spec _ _ _)
                 (default_rule_matches self interaction Hs)).
  cbn [map payload]. unfold Py.choice. cbn [List.length].
  rewrite Nat.mod_1_r. reflexivity.
Qed.

(** X15. With the class-level table every tick runs "idle action", from
    any starting state: the decay at the start of the tick brings the
    emotions back inside the bounds of the rule. *)
Theorem tick_default_idle (d : Draws) (self : Emotions) :
  _tick ACTION_TABLE d self =
    (decay self,
     [PrintStress (stress_of (get (decay self)));
      Sleep (delay_of (stress_of (get (decay self))) (randint_draw d));
      PrintPayload "idle action"],
     Returned).
Proof.
  unfold _tick, _action_events.
  rewrite (default_table_selects (choice_draw d) (decay self) NONE
                                 (decay_in_range self)).
  reflexivity.
Qed.


Lemma every_candidate_selectable_witness :
  In "yelp" (collect_runnable sample_table (get (mkEmotions 0 0 0 0 50))
                              TAIL_PULL) /\
  exists r,
    _action sample_table r (mkEmotions 0 0 0 0 50) TAIL_PULL
      = Executed "yelp".
Proof.
  assert (H : In "yelp" (collect_runnable sample_table
                           (get (mkEmotions 0 0 0 0 50)) TAIL_PULL))
    by (cbn; tauto).
  split; [exact H|].
  exact (every_candidate_selectable sample_table (mkEmotions 0 0 0 0 50)
                                    TAIL_PULL "yelp" H).
Defined.

Lemma single_payload_selected_witness :
  (exists entry,
     In entry sample_table /\
     rule_matches (get (mkEmotions 0 0 0 0 5)) TAIL_PULL entry) /\
  (forall entry,
     In entry sample_table ->
     rule_matches (get (mkEmotions 0 0 0 0 5)) TAIL_PULL entry ->
     payload entry = "hum") /\
  _action sample_table 9 (mkEmotions 0 0 0 0 5) TAIL_PULL = Executed "hum".
Proof.
  assert (Hex : exists entry,
             In entry sample_table /\
             rule_matches (get (mkEmotions 0 0 0 0 5)) TAIL_PULL entry).
  { exists (mkAction 0 0 0 0 0 100 100 100 100 100 0 "hum").
    split; [now left|]. cbn. lia. }
  assert (Hall : forall entry,
             In entry sample_table ->
             rule_matches (get (mkEmotions 0 0 0 0 5)) TAIL_PULL entry ->
             payload entry = "hum").
  { intros entry [<- | [<- | []]]; cbn; [reflexivity | lia]. }
  split; [exact Hex|]. split; [exact Hall|].
  exact (single_payload_selected sample_table (mkEmotions 0 0 0 0 5)
                                 TAIL_PULL "hum" 9 Hex Hall).
Defined.

Lemma inverted_entry_dead_witness :
  inverted (mkAction 60 0 0 0 0 40 100 100 100 100 0 "never") /\
  collect_runnable
    (ACTION_TABLE
       ++ mkAction 60 0 0 0 0 40 100 100 100 100 0 "never" :: sample_table)
    (50, 50, 50, 50, 50) SOUND
  = collect_runnable (ACTION_TABLE ++ sample_table) (50, 50, 50, 50, 50)
                     SOUND.
Proof.
  assert (H : inverted (mkAction 60 0 0 0 0 40 100 100 100 100 0 "never"))
    by (unfold inverted; cbn; lia).
  split; [exact H|].
  exact (inverted_entry_dead ACTION_TABLE sample_table _ (50, 50, 50, 50, 50)
                             SOUND H).
Defined.

Lemma idle_runs_unconditional_witness :
  _action sample_table 1 (mkEmotions 0 0 0 0 50) NONE = Executed "hum" /\
  exists entry,
    In entry sample_table /\ payload entry = "hum" /\
    interaction_req entry = 0.
Proof.
  assert (H : _action sample_table 1 (mkEmotions 0 0 0 0 50) NONE
              = Executed "hum") by reflexivity.
  split; [exact H|].
  exact (idle_runs_unconditional sample_table 1 (mkEmotions 0 0 0 0 50)
                                 "hum" H).
Defined.

End DefaultDriverFacts.

(** ** Further properties of the MicroPython variant *)

Section MicroMore.

Lemma micro_tick_n_noop (n : nat) (self : Micro.Emotions) :
  Micro.tick_n n self = self.
Proof.
  revert self. induction n as [|n IH]; intros self; cbn [Micro.tick_n].
  - reflexivity.
  - rewrite IH. unfold Micro.tick, Micro.decay, Micro.decay_frame.
    now rewrite loop_self.
Qed.

(** X16. In the MicroPython variant the values given to [set] are still
    what [get] returns after any number of ticks: nothing decays. *)
Theorem micro_ticks_keep_set (n : nat) (self : Micro.Emotions)
        (v0 v1 v2 v3 v4 : Z) :
  Micro.get (Micro.tick_n n (Micro.set self (v0, v1, v2, v3, v4)))
  = (v0, v1, v2, v3, v4).
Proof. rewrite micro_tick_n_noop. reflexivity. Qed.

(** X17. The loop body of the MicroPython [decay] computes, in its local
    name, the very value that [decay] of [brain.py] stores back into the
    attribute. *)
Theorem micro_loop_body_value (self : Micro.Emotions) (local : option Z)
        (s : Brain.Emotions) (a : Brain.Attr) :
  Micro.emotion
    (Micro.loop_body (Micro.mkFrame self 1 local) (Brain.getattr s a))
  = Some (Brain.getattr (Brain.decay_step s a) a).
Proof.
  rewrite decay_step_same. generalize (Brain.getattr s a) as v. intros v.
  unfold Micro.loop_body.
  cbn [Micro.bind_emotion Micro.emotion Micro.decay_rate Micro.self_obj].
  destruct (Z.geb_spec v 1) as [Hge | Hlt];
    cbn [Micro.bind_emotion Micro.emotion Micro.decay_rate Micro.self_obj].
  - destruct (Z.gtb_spec (v - 1) 100); f_equal; lia.
  - replace (Z.min 100 (Z.max 0 (v - 1))) with 0 by lia. reflexivity.
Qed.

End MicroMore.
